(** * TFLite stub headers of Openock: element types, quantization
      parameters, dimension encodings and the MLIR handle stand-ins.

    Sources:
    - [ThirdParty/TFLite/tensorflow/lite/core/c/types.h]
    - [ThirdParty/TFLite/tensorflow/compiler/mlir/lite/core/c/tflite_types.h]

    Both headers contain declarations only.  The development has three
    layers:
    - [Header]: the declarations of each header as written (enumerators
      with their initialisers, struct members with their C types), and the
      C rule that gives every enumerator its value;
    - the types the declarations denote: one constructor per enumerator,
      one record per struct, [float] as IEEE binary32, [int32_t] as a
      32-bit two's complement integer, [void *] as an address;
    - the operations C gives for free on such types (enumerator to integer,
      zero initialisation, member read, member store, copy, assignment);
    - [Preprocessor]: the headers line by line, with their include guards
      and [extern "C"] brackets, and what including them lets through. *)

From Stdlib Require Import ZArith NArith List String Bool Lia.
From Stdlib Require Import Floats.SpecFloat.
From stdpp Require Import base decidable list finite.
From stdpp Require Import gmap strings.
Import ListNotations.

Local Open Scope Z_scope.

(* ===================================================================== *)
(** ** The headers as written                                             *)
(* ===================================================================== *)

Module Header.

(** The C types that occur as member types in the two headers. *)
Inductive ctype : Set :=
| CFloat      (* float    *)
| CInt32      (* int32_t  *)
| CVoidPtr.   (* void *   *)

(** [name = init] inside an [enum { ... }]; [init] is [None] when the
    enumerator has no initialiser. *)
Record enumerator : Set := Enumerator {
  enumerator_name : string;
  enumerator_init : option Z
}.

(** [type name;] inside a [struct { ... }]. *)
Record member : Set := Member {
  member_type : ctype;
  member_name : string
}.

(** A top-level declaration.  [tag] is the name after [enum] / [struct]
    ([None] when anonymous), [alias] the typedef name.  A function
    prototype would be a [FunctionDecl]; neither header has one. *)
Inductive declaration : Set :=
| TypedefEnum   (tag : option string) (alias : string)
                (enumerators : list enumerator)
| TypedefStruct (tag : option string) (alias : string)
                (members : list member)
| FunctionDecl  (name : string) (result : option ctype)
                (parameters : list ctype).

Definition is_data_declaration (d : declaration) : bool :=
  match d with
  | TypedefEnum _ _ _ | TypedefStruct _ _ _ => true
  | FunctionDecl _ _ _ => false
  end.

Definition declared_name (d : declaration) : string :=
  match d with
  | TypedefEnum _ alias _ | TypedefStruct _ alias _ => alias
  | FunctionDecl name _ _ => name
  end.

(** The functions (operations) a header declares. *)
Definition declared_functions (ds : list declaration) : list string :=
  map declared_name (filter (fun d => negb (is_data_declaration d)) ds).

(** Values of the enumerators of one [enum], C11 6.7.2.2p3: an
    enumerator with an initialiser has that value, the first one without
    has 0, any other one without has the previous value plus 1. *)
Fixpoint enumerator_values (next : Z) (es : list enumerator)
  : list (string * Z) :=
  match es with
  | [] => []
  | e :: es' =>
      let v := match enumerator_init e with
               | Some k => k
               | None => next
               end in
      (enumerator_name e, v) :: enumerator_values (v + 1) es'
  end.

Local Open Scope string_scope.

(** [types.h], lines 13-31. *)
Definition TfLiteType_enumerators : list enumerator :=
  [ Enumerator "kTfLiteNoType"    (Some 0);
    Enumerator "kTfLiteFloat32"   (Some 1);
    Enumerator "kTfLiteInt32"     (Some 2);
    Enumerator "kTfLiteUInt8"     (Some 3);
    Enumerator "kTfLiteInt64"     (Some 4);
    Enumerator "kTfLiteString"    (Some 5);
    Enumerator "kTfLiteBool"      (Some 6);
    Enumerator "kTfLiteInt16"     (Some 7);
    Enumerator "kTfLiteComplex64" (Some 8);
    Enumerator "kTfLiteInt8"      (Some 9);
    Enumerator "kTfLiteFloat16"   (Some 10);
    Enumerator "kTfLiteFloat64"   (Some 11);
    Enumerator "kTfLiteUInt64"    (Some 12);
    Enumerator "kTfLiteResource"  (Some 13);
    Enumerator "kTfLiteVariant"   (Some 14);
    Enumerator "kTfLiteUInt32"    (Some 15);
    Enumerator "kTfLiteUInt16"    (Some 16) ].

(** [types.h], lines 36-39. *)
Definition TfLiteQuantizationParams_members : list member :=
  [ Member CFloat "scale";
    Member CInt32 "zero_point" ].

(** [types.h], lines 44-53. *)
Definition TfLiteDimensionType_enumerators : list enumerator :=
  [ Enumerator "kTfLiteDimDense"     (Some 0);
    Enumerator "kTfLiteDimSparseCSR" (Some 1);
    Enumerator "kTfLiteDimSparseCOO" (Some 2) ].

(** [tflite_types.h], lines 9 and 10. *)
Definition MlirContext_members : list member := [ Member CVoidPtr "ptr" ].
Definition MlirType_members    : list member := [ Member CVoidPtr "ptr" ].

(** The two translation-unit fragments, declaration by declaration. *)
Definition types_h : list declaration :=
  [ TypedefEnum None "TfLiteType" TfLiteType_enumerators;
    TypedefStruct None "TfLiteQuantizationParams"
                  TfLiteQuantizationParams_members;
    TypedefEnum (Some "TfLiteDimensionType") "TfLiteDimensionType"
                TfLiteDimensionType_enumerators ].

Definition tflite_types_h : list declaration :=
  [ TypedefStruct (Some "MlirContext") "MlirContext" MlirContext_members;
    TypedefStruct (Some "MlirType") "MlirType" MlirType_members ].

End Header.

(* ===================================================================== *)
(** ** Scalar types: [float], [int32_t], [void *]                         *)
(* ===================================================================== *)

(** [float] is IEEE 754 binary32.  An object of type [float] holds 32
    bits: sign (bit 31), biased exponent (bits 30..23) and trailing
    significand (bits 22..0).  The bits are kept as they are, so that NaN
    payloads and the sign of zero survive, and decoded on demand. *)
Definition float32 : Set := Z.

Definition float32_wf (b : float32) : bool :=
  (0 <=? b) && (b <? 2 ^ 32).

Definition float32_prec : Z := 24.
Definition float32_emax : Z := 128.

Definition float32_sign (b : float32) : bool := Z.testbit b 31.
Definition float32_exponent (b : float32) : Z := Z.land (Z.shiftr b 23) 255.
Definition float32_significand (b : float32) : Z := Z.land b (2 ^ 23 - 1).

(** The floating-point datum the bits stand for: zero and subnormals for
    exponent field 0, infinities and NaNs for 255, otherwise a normal
    number with the hidden bit restored and the bias (127, plus the 23
    fraction bits) removed. *)
Definition float32_decode (b : float32) : spec_float :=
  let s := float32_sign b in
  let e := float32_exponent b in
  let m := float32_significand b in
  if e =? 0 then
    match m with
    | Zpos p => S754_finite s p (-149)
    | _ => S754_zero s
    end
  else if e =? 255 then
    match m with
    | Z0 => S754_infinity s
    | _ => S754_nan
    end
  else
    match m + 2 ^ 23 with
    | Zpos p => S754_finite s p (e - 150)
    | _ => S754_nan
    end.

(** [x < 0.0f] with the IEEE comparison (false on NaN and on -0). *)
Definition float32_is_negative (x : float32) : bool :=
  SFltb (float32_decode x) (S754_zero false).

(** [x == y] with the IEEE comparison (false when either is NaN). *)
Definition float32_eqb (x y : float32) : bool :=
  SFeqb (float32_decode x) (float32_decode y).

(** The C constants [0.5f] and [-0.5f]. *)
Definition float32_half : float32 := 0x3f000000.
Definition float32_minus_half : float32 := 0xbf000000.

(** [int32_t]: 32-bit two's complement. *)
Definition int32_min : Z := - 2 ^ 31.
Definition int32_max : Z := 2 ^ 31 - 1.

Definition int32 : Set := Z.

Definition int32_wf (z : int32) : bool :=
  (int32_min <=? z) && (z <=? int32_max).

(** [void *]: an address; the null pointer is address 0.  The width of an
    address is the platform's, the headers do not fix it. *)
Definition voidptr : Set := N.
Definition NULL : voidptr := 0%N.

(** What a member type denotes, its well-formed values, and the value
    zero initialisation gives it (C11 6.7.9p10). *)
Definition ctype_denote (c : Header.ctype) : Set :=
  match c with
  | Header.CFloat => float32
  | Header.CInt32 => int32
  | Header.CVoidPtr => voidptr
  end.

Definition ctype_wf (c : Header.ctype) : ctype_denote c -> bool :=
  match c with
  | Header.CFloat => float32_wf
  | Header.CInt32 => int32_wf
  | Header.CVoidPtr => fun _ => true
  end.

Definition ctype_zero (c : Header.ctype) : ctype_denote c :=
  match c with
  | Header.CFloat => 0
  | Header.CInt32 => 0
  | Header.CVoidPtr => NULL
  end.

(** A member list denotes the tuple of its members, in declaration order. *)
Fixpoint members_denote (ms : list Header.member) : Set :=
  match ms with
  | [] => unit
  | m :: ms' => (ctype_denote (Header.member_type m) * members_denote ms')%type
  end.

Fixpoint members_wf (ms : list Header.member) : members_denote ms -> bool :=
  match ms with
  | [] => fun _ => true
  | m :: ms' => fun v =>
      ctype_wf (Header.member_type m) (fst v) && members_wf ms' (snd v)
  end.

Fixpoint members_zero (ms : list Header.member) : members_denote ms :=
  match ms with
  | [] => tt
  | m :: ms' => (ctype_zero (Header.member_type m), members_zero ms')
  end.

(* ===================================================================== *)
(** ** [TfLiteType] ([types.h], lines 13-31)                              *)
(* ===================================================================== *)

Inductive TfLiteType : Set :=
| kTfLiteNoType
| kTfLiteFloat32
| kTfLiteInt32
| kTfLiteUInt8
| kTfLiteInt64
| kTfLiteString
| kTfLiteBool
| kTfLiteInt16
| kTfLiteComplex64
| kTfLiteInt8
| kTfLiteFloat16
| kTfLiteFloat64
| kTfLiteUInt64
| kTfLiteResource
| kTfLiteVariant
| kTfLiteUInt32
| kTfLiteUInt16.

(** The integer an enumerator stands for ([(int)t] in C). *)
Definition TfLiteType_value (t : TfLiteType) : Z :=
  match t with
  | kTfLiteNoType    => 0
  | kTfLiteFloat32   => 1
  | kTfLiteInt32     => 2
  | kTfLiteUInt8     => 3
  | kTfLiteInt64     => 4
  | kTfLiteString    => 5
  | kTfLiteBool      => 6
  | kTfLiteInt16     => 7
  | kTfLiteComplex64 => 8
  | kTfLiteInt8      => 9
  | kTfLiteFloat16   => 10
  | kTfLiteFloat64   => 11
  | kTfLiteUInt64    => 12
  | kTfLiteResource  => 13
  | kTfLiteVariant   => 14
  | kTfLiteUInt32    => 15
  | kTfLiteUInt16    => 16
  end.

(** The identifier of an enumerator, as spelled in the header. *)
Definition TfLiteType_name (t : TfLiteType) : string :=
  match t with
  | kTfLiteNoType    => "kTfLiteNoType"
  | kTfLiteFloat32   => "kTfLiteFloat32"
  | kTfLiteInt32     => "kTfLiteInt32"
  | kTfLiteUInt8     => "kTfLiteUInt8"
  | kTfLiteInt64     => "kTfLiteInt64"
  | kTfLiteString    => "kTfLiteString"
  | kTfLiteBool      => "kTfLiteBool"
  | kTfLiteInt16     => "kTfLiteInt16"
  | kTfLiteComplex64 => "kTfLiteComplex64"
  | kTfLiteInt8      => "kTfLiteInt8"
  | kTfLiteFloat16   => "kTfLiteFloat16"
  | kTfLiteFloat64   => "kTfLiteFloat64"
  | kTfLiteUInt64    => "kTfLiteUInt64"
  | kTfLiteResource  => "kTfLiteResource"
  | kTfLiteVariant   => "kTfLiteVariant"
  | kTfLiteUInt32    => "kTfLiteUInt32"
  | kTfLiteUInt16    => "kTfLiteUInt16"
  end%string.

(** The enumerators in declaration order. *)
Definition TfLiteType_all : list TfLiteType :=
  [ kTfLiteNoType; kTfLiteFloat32; kTfLiteInt32; kTfLiteUInt8; kTfLiteInt64;
    kTfLiteString; kTfLiteBool; kTfLiteInt16; kTfLiteComplex64; kTfLiteInt8;
    kTfLiteFloat16; kTfLiteFloat64; kTfLiteUInt64; kTfLiteResource;
    kTfLiteVariant; kTfLiteUInt32; kTfLiteUInt16 ].

(** The named tag an integer stands for, if any: an object of type
    [TfLiteType] stores an integer, and only the 17 values below name an
    enumerator. *)
Definition TfLiteType_of_Z (z : Z) : option TfLiteType :=
  List.find (fun t => TfLiteType_value t =? z) TfLiteType_all.

(** A zero-initialised [TfLiteType] object ([TfLiteType t = {0};], static
    storage, [memset], [calloc]) stores the integer 0. *)
Definition TfLiteType_zero_value : Z := 0.

(** The enumerators that name the scalar kind of a tensor element: every
    one but the "no type" tag. *)
Definition TfLiteType_element_kinds : list TfLiteType :=
  [ kTfLiteFloat32; kTfLiteInt32; kTfLiteUInt8; kTfLiteInt64;
    kTfLiteString; kTfLiteBool; kTfLiteInt16; kTfLiteComplex64; kTfLiteInt8;
    kTfLiteFloat16; kTfLiteFloat64; kTfLiteUInt64; kTfLiteResource;
    kTfLiteVariant; kTfLiteUInt32; kTfLiteUInt16 ].

#[global] Instance TfLiteType_eq_dec : EqDecision TfLiteType.
Proof. solve_decision. Defined.

(* ===================================================================== *)
(** ** [TfLiteDimensionType] ([types.h], lines 44-53)                     *)
(* ===================================================================== *)

Inductive TfLiteDimensionType : Set :=
| kTfLiteDimDense
| kTfLiteDimSparseCSR
| kTfLiteDimSparseCOO.

Definition TfLiteDimensionType_value (d : TfLiteDimensionType) : Z :=
  match d with
  | kTfLiteDimDense     => 0
  | kTfLiteDimSparseCSR => 1
  | kTfLiteDimSparseCOO => 2
  end.

Definition TfLiteDimensionType_name (d : TfLiteDimensionType) : string :=
  match d with
  | kTfLiteDimDense     => "kTfLiteDimDense"
  | kTfLiteDimSparseCSR => "kTfLiteDimSparseCSR"
  | kTfLiteDimSparseCOO => "kTfLiteDimSparseCOO"
  end%string.

Definition TfLiteDimensionType_all : list TfLiteDimensionType :=
  [ kTfLiteDimDense; kTfLiteDimSparseCSR; kTfLiteDimSparseCOO ].

Definition TfLiteDimensionType_of_Z (z : Z) : option TfLiteDimensionType :=
  List.find (fun d => TfLiteDimensionType_value d =? z)
            TfLiteDimensionType_all.

#[global] Instance TfLiteDimensionType_eq_dec : EqDecision TfLiteDimensionType.
Proof. solve_decision. Defined.

(* ===================================================================== *)
(** ** [TfLiteQuantizationParams] ([types.h], lines 36-39)                *)
(* ===================================================================== *)

Record TfLiteQuantizationParams : Set := mkTfLiteQuantizationParams {
  scale      : float32;
  zero_point : int32
}.

(** A value whose members are values of their types. *)
Definition TfLiteQuantizationParams_wf (q : TfLiteQuantizationParams) : bool :=
  float32_wf (scale q) && int32_wf (zero_point q).

(** The struct as the tuple of its members, in declaration order. *)
Definition TfLiteQuantizationParams_to_members (q : TfLiteQuantizationParams)
  : members_denote Header.TfLiteQuantizationParams_members :=
  (scale q, (zero_point q, tt)).

Definition TfLiteQuantizationParams_of_members
  (v : members_denote Header.TfLiteQuantizationParams_members)
  : TfLiteQuantizationParams :=
  {| scale := fst v; zero_point := fst (snd v) |}.

(** [TfLiteQuantizationParams c = q;] (copy initialisation, and the
    implicit copy constructor in C++): member by member. *)
Definition TfLiteQuantizationParams_copy (q : TfLiteQuantizationParams)
  : TfLiteQuantizationParams :=
  {| scale := scale q; zero_point := zero_point q |}.

(** [dst = src;]: the new value of [dst], whatever it held before. *)
Definition TfLiteQuantizationParams_assign
  (dst src : TfLiteQuantizationParams) : TfLiteQuantizationParams :=
  {| scale := scale src; zero_point := zero_point src |}.

(** [q.scale = s;] and [q.zero_point = z;]: the new value of [q]. *)
Definition TfLiteQuantizationParams_set_scale
  (q : TfLiteQuantizationParams) (s : float32) : TfLiteQuantizationParams :=
  {| scale := s; zero_point := zero_point q |}.

Definition TfLiteQuantizationParams_set_zero_point
  (q : TfLiteQuantizationParams) (z : int32) : TfLiteQuantizationParams :=
  {| scale := scale q; zero_point := z |}.

(* ===================================================================== *)
(** ** [MlirContext], [MlirType] ([tflite_types.h], lines 9-10)           *)
(* ===================================================================== *)

Module MlirContext.
Record t : Set := mk { ptr : voidptr }.
Definition to_members (h : t) : members_denote Header.MlirContext_members :=
  (ptr h, tt).
Definition of_members (v : members_denote Header.MlirContext_members) : t :=
  {| ptr := fst v |}.
(** [MlirContext h = {0};] *)
Definition zero : t := of_members (members_zero Header.MlirContext_members).
Definition is_null (h : t) : bool := (ptr h =? NULL)%N.
End MlirContext.

Module MlirType.
Record t : Set := mk { ptr : voidptr }.
Definition to_members (h : t) : members_denote Header.MlirType_members :=
  (ptr h, tt).
Definition of_members (v : members_denote Header.MlirType_members) : t :=
  {| ptr := fst v |}.
(** [MlirType h = {0};] *)
Definition zero : t := of_members (members_zero Header.MlirType_members).
Definition is_null (h : t) : bool := (ptr h =? NULL)%N.
End MlirType.

(** The enumerations are finite types whose elements are the declared
    enumerators. *)
#[global] Program Instance TfLiteType_finite : Finite TfLiteType :=
  {| enum := TfLiteType_all |}.
Next Obligation. apply (bool_decide_unpack _). vm_compute. exact I. Qed.
Next Obligation. intros []; unfold TfLiteType_all; repeat constructor. Qed.

#[global] Program Instance TfLiteDimensionType_finite
  : Finite TfLiteDimensionType := {| enum := TfLiteDimensionType_all |}.
Next Obligation. apply (bool_decide_unpack _). vm_compute. exact I. Qed.
Next Obligation. intros []; unfold TfLiteDimensionType_all; repeat constructor. Qed.

(* ===================================================================== *)
(** ** Preprocessing the headers                                          *)
(* ===================================================================== *)

Module Preprocessor.

(** A header, line by line: the directives, the linkage brackets and the
    declarations (comments and blank lines left out). *)
Inductive line : Set :=
| IfNDef (macro : string)              (* #ifndef macro *)
| IfDef (macro : string)               (* #ifdef macro *)
| Define (macro : string)              (* #define macro *)
| EndIf                                (* #endif *)
| Include (file : string)              (* #include <file> *)
| ExternCOpen                          (* extern "C" { *)
| ExternCClose                         (* } of extern "C" *)
| Declaration (d : Header.declaration).

(** What reaches the compiler after preprocessing. *)
Inductive item : Set :=
| ItemInclude (file : string)
| ItemExternCOpen
| ItemExternCClose
| ItemDeclaration (d : Header.declaration).

(** The preprocessor while it reads a file: the macros defined so far, one
    flag per open conditional (innermost first; [true] when its lines are
    kept, which needs every enclosing one to be kept too), and what was
    let through. *)
Record state : Type := State {
  macros : gset string;
  conds : list bool;
  output : list item
}.

Definition active (st : state) : bool :=
  match conds st with
  | [] => true
  | c :: _ => c
  end.

Definition open_cond (c : bool) (st : state) : state :=
  State (macros st) ((active st && c) :: conds st) (output st).

Definition emit (i : item) (st : state) : state :=
  if active st then State (macros st) (conds st) (output st ++ [i]) else st.

(** One line.  [#endif] without an open conditional is an error. *)
Definition step (l : line) (st : state) : option state :=
  match l with
  | IfNDef m => Some (open_cond (negb (bool_decide (m ∈ macros st))) st)
  | IfDef m => Some (open_cond (bool_decide (m ∈ macros st)) st)
  | Define m =>
      Some (if active st
            then State ({[m]} ∪ macros st) (conds st) (output st)
            else st)
  | EndIf =>
      match conds st with
      | [] => None
      | _ :: cs => Some (State (macros st) cs (output st))
      end
  | Include f => Some (emit (ItemInclude f) st)
  | ExternCOpen => Some (emit ItemExternCOpen st)
  | ExternCClose => Some (emit ItemExternCClose st)
  | Declaration d => Some (emit (ItemDeclaration d) st)
  end.

Fixpoint run (ls : list line) (st : state) : option state :=
  match ls with
  | [] => Some st
  | l :: ls' =>
      match step l st with
      | Some st' => run ls' st'
      | None => None
      end
  end.

(** [#include] of a whole file into a translation unit that has the
    macros [fst tu] defined and has let [snd tu] through so far.  A
    conditional still open at the end of the file is an error. *)
Definition include_file (file : list line) (tu : gset string * list item)
  : option (gset string * list item) :=
  match run file (State (fst tu) [] (snd tu)) with
  | Some st =>
      match conds st with
      | [] => Some (macros st, output st)
      | _ :: _ => None
      end
  | None => None
  end.


(** The two headers. *)
Inductive header : Set := TypesH | TfliteTypesH.

#[global] Instance header_eq_dec : EqDecision header.
Proof. solve_decision. Defined.

Definition cplusplus : string := "__cplusplus".

Definition header_guard (h : header) : string :=
  match h with
  | TypesH => "TENSORFLOW_LITE_CORE_C_TYPES_H_"
  | TfliteTypesH => "TENSORFLOW_COMPILER_MLIR_LITE_CORE_C_TFLITE_TYPES_H_"
  end.

Definition header_declarations (h : header) : list Header.declaration :=
  match h with
  | TypesH => Header.types_h
  | TfliteTypesH => Header.tflite_types_h
  end.

(** [types.h], lines 1-59. *)
Definition types_h : list line :=
  [ IfNDef "TENSORFLOW_LITE_CORE_C_TYPES_H_";
    Define "TENSORFLOW_LITE_CORE_C_TYPES_H_";
    Include "stdint.h";
    IfDef "__cplusplus";
    ExternCOpen;
    EndIf ]
  ++ map Declaration Header.types_h ++
  [ IfDef "__cplusplus";
    ExternCClose;
    EndIf;
    EndIf ].

(** [tflite_types.h], lines 1-16. *)
Definition tflite_types_h : list line :=
  [ IfNDef "TENSORFLOW_COMPILER_MLIR_LITE_CORE_C_TFLITE_TYPES_H_";
    Define "TENSORFLOW_COMPILER_MLIR_LITE_CORE_C_TFLITE_TYPES_H_";
    IfDef "__cplusplus";
    ExternCOpen;
    EndIf ]
  ++ map Declaration Header.tflite_types_h ++
  [ IfDef "__cplusplus";
    ExternCClose;
    EndIf;
    EndIf ].

Definition header_lines (h : header) : list line :=
  match h with
  | TypesH => types_h
  | TfliteTypesH => tflite_types_h
  end.







End Preprocessor.

(** An enumeration written without initialisers. *)
Definition without_initialisers (es : list Header.enumerator)
  : list Header.enumerator :=
  map (fun e => Header.Enumerator (Header.enumerator_name e) None) es.

(** What the first inclusion of a header lets through; [cpp] tells
    whether [__cplusplus] is defined. *)
Definition header_items (h : Preprocessor.header) (cpp : bool)
  : list Preprocessor.item :=
  match h with
  | Preprocessor.TypesH => [ Preprocessor.ItemInclude "stdint.h" ]
  | Preprocessor.TfliteTypesH => []
  end
  ++ (if cpp then [ Preprocessor.ItemExternCOpen ] else [])
  ++ map Preprocessor.ItemDeclaration (Preprocessor.header_declarations h)
  ++ (if cpp then [ Preprocessor.ItemExternCClose ] else []).

(* ===================================================================== *)
(** ** Enumerator values                                                  *)
(* ===================================================================== *)

Lemma TfLiteType_value_range (t : TfLiteType) : 0 <= TfLiteType_value t <= 16.
Proof. destruct t; simpl; lia. Qed.

Lemma TfLiteDimensionType_value_range (d : TfLiteDimensionType) :
  0 <= TfLiteDimensionType_value d <= 2.
Proof. destruct d; simpl; lia. Qed.

(** Decoding an enumerator's own value gives the enumerator back. *)
Lemma TfLiteType_of_Z_value (t : TfLiteType) :
  TfLiteType_of_Z (TfLiteType_value t) = Some t.
Proof. destruct t; reflexivity. Qed.

Lemma TfLiteDimensionType_of_Z_value (d : TfLiteDimensionType) :
  TfLiteDimensionType_of_Z (TfLiteDimensionType_value d) = Some d.
Proof. destruct d; reflexivity. Qed.

(** Decoding only ever answers with a tag that has the given value. *)
Lemma TfLiteType_of_Z_sound (z : Z) (t : TfLiteType) :
  TfLiteType_of_Z z = Some t -> TfLiteType_value t = z.
Proof.
  unfold TfLiteType_of_Z. intros H.
  apply find_some in H. destruct H as [_ H]. now apply Z.eqb_eq.
Qed.

Lemma TfLiteDimensionType_of_Z_sound (z : Z) (d : TfLiteDimensionType) :
  TfLiteDimensionType_of_Z z = Some d -> TfLiteDimensionType_value d = z.
Proof.
  unfold TfLiteDimensionType_of_Z. intros H.
  apply find_some in H. destruct H as [_ H]. now apply Z.eqb_eq.
Qed.

(** Integers outside the declared values name no tag. *)
Lemma TfLiteType_of_Z_out_of_range (z : Z) :
  z < 0 \/ 16 < z -> TfLiteType_of_Z z = None.
Proof.
  intros Hz. destruct (TfLiteType_of_Z z) as [t|] eqn:E; [|reflexivity].
  apply TfLiteType_of_Z_sound in E.
  pose proof (TfLiteType_value_range t). lia.
Qed.

Lemma TfLiteDimensionType_of_Z_out_of_range (z : Z) :
  z < 0 \/ 2 < z -> TfLiteDimensionType_of_Z z = None.
Proof.
  intros Hz. destruct (TfLiteDimensionType_of_Z z) as [d|] eqn:E; [|reflexivity].
  apply TfLiteDimensionType_of_Z_sound in E.
  pose proof (TfLiteDimensionType_value_range d). lia.
Qed.

(** A decoder that inverts [value] makes [value] injective. *)
Section Decoded.
Context {A : Set} (value : A -> Z) (of_Z : Z -> option A).
Hypothesis of_Z_value : forall a, of_Z (value a) = Some a.

Lemma decoded_value_inj (a b : A) : value a = value b -> a = b.
Proof.
  intros H. pose proof (of_Z_value a) as Ha.
  rewrite H, of_Z_value in Ha. congruence.
Qed.
End Decoded.

Lemma TfLiteType_value_inj : Inj (=) (=) TfLiteType_value.
Proof.
  intros a b. apply (decoded_value_inj _ _ TfLiteType_of_Z_value).
Qed.

Lemma TfLiteDimensionType_value_inj : Inj (=) (=) TfLiteDimensionType_value.
Proof.
  intros a b. apply (decoded_value_inj _ _ TfLiteDimensionType_of_Z_value).
Qed.

(** The shallow enumerations agree with the headers: same identifiers,
    same order, and the values C assigns to the declared enumerators. *)
Lemma TfLiteType_matches_header :
  map (fun t => (TfLiteType_name t, TfLiteType_value t)) (enum TfLiteType)
  = Header.enumerator_values 0 Header.TfLiteType_enumerators.
Proof. reflexivity. Qed.

Lemma TfLiteDimensionType_matches_header :
  map (fun d => (TfLiteDimensionType_name d, TfLiteDimensionType_value d))
      (enum TfLiteDimensionType)
  = Header.enumerator_values 0 Header.TfLiteDimensionType_enumerators.
Proof. reflexivity. Qed.

(** C1. Every member of [TfLiteType] has the integer value the header
    assigns to it: kTfLiteNoType=0, kTfLiteFloat32=1, kTfLiteInt32=2,
    kTfLiteUInt8=3, kTfLiteInt64=4, kTfLiteString=5, kTfLiteBool=6,
    kTfLiteInt16=7, kTfLiteComplex64=8, kTfLiteInt8=9, kTfLiteFloat16=10,
    kTfLiteFloat64=11, kTfLiteUInt64=12, kTfLiteResource=13,
    kTfLiteVariant=14, kTfLiteUInt32=15, kTfLiteUInt16=16; these 17 tags
    are all the members there are, and they are the enumerators the header
    declares, with the values C gives them. *)
Theorem TfLiteType_enumeration :
  (TfLiteType_value kTfLiteNoType = 0 /\
   TfLiteType_value kTfLiteFloat32 = 1 /\
   TfLiteType_value kTfLiteInt32 = 2 /\
   TfLiteType_value kTfLiteUInt8 = 3 /\
   TfLiteType_value kTfLiteInt64 = 4 /\
   TfLiteType_value kTfLiteString = 5 /\
   TfLiteType_value kTfLiteBool = 6 /\
   TfLiteType_value kTfLiteInt16 = 7 /\
   TfLiteType_value kTfLiteComplex64 = 8 /\
   TfLiteType_value kTfLiteInt8 = 9 /\
   TfLiteType_value kTfLiteFloat16 = 10 /\
   TfLiteType_value kTfLiteFloat64 = 11 /\
   TfLiteType_value kTfLiteUInt64 = 12 /\
   TfLiteType_value kTfLiteResource = 13 /\
   TfLiteType_value kTfLiteVariant = 14 /\
   TfLiteType_value kTfLiteUInt32 = 15 /\
   TfLiteType_value kTfLiteUInt16 = 16) /\
  (forall t : TfLiteType,
     In t [ kTfLiteNoType; kTfLiteFloat32; kTfLiteInt32; kTfLiteUInt8;
            kTfLiteInt64; kTfLiteString; kTfLiteBool; kTfLiteInt16;
            kTfLiteComplex64; kTfLiteInt8; kTfLiteFloat16; kTfLiteFloat64;
            kTfLiteUInt64; kTfLiteResource; kTfLiteVariant; kTfLiteUInt32;
            kTfLiteUInt16 ]) /\
  card TfLiteType = 17%nat /\
  map (fun t => (TfLiteType_name t, TfLiteType_value t)) (enum TfLiteType)
  = Header.enumerator_values 0 Header.TfLiteType_enumerators.
Proof.
  split; [repeat split|].
  split; [|split; [reflexivity | exact TfLiteType_matches_header]].
  intros t. apply list_elem_of_In. exact (elem_of_enum t).
Qed.

(** C2. Every member of [TfLiteDimensionType] has the value the header
    assigns: kTfLiteDimDense = 0, kTfLiteDimSparseCSR = 1,
    kTfLiteDimSparseCOO = 2, and these 3 are all the members. *)
Theorem TfLiteDimensionType_enumeration :
  (TfLiteDimensionType_value kTfLiteDimDense = 0 /\
   TfLiteDimensionType_value kTfLiteDimSparseCSR = 1 /\
   TfLiteDimensionType_value kTfLiteDimSparseCOO = 2) /\
  (forall d : TfLiteDimensionType,
     In d [ kTfLiteDimDense; kTfLiteDimSparseCSR; kTfLiteDimSparseCOO ]) /\
  card TfLiteDimensionType = 3%nat /\
  map (fun d => (TfLiteDimensionType_name d, TfLiteDimensionType_value d))
      (enum TfLiteDimensionType)
  = Header.enumerator_values 0 Header.TfLiteDimensionType_enumerators.
Proof.
  split; [repeat split|].
  split; [|split; [reflexivity | exact TfLiteDimensionType_matches_header]].
  intros d. apply list_elem_of_In. exact (elem_of_enum d).
Qed.

(** An integer in the declared range names one tag, and decoding finds it. *)
Lemma TfLiteType_of_Z_in_range (z : Z) :
  0 <= z <= 16 ->
  exists t, TfLiteType_of_Z z = Some t /\
            forall t', TfLiteType_value t' = z <-> t' = t.
Proof.
  intros Hz.
  assert (Hd : exists t, TfLiteType_of_Z z = Some t).
  { assert (Hc : z = 0 \/ z = 1 \/ z = 2 \/ z = 3 \/ z = 4 \/ z = 5 \/
                 z = 6 \/ z = 7 \/ z = 8 \/ z = 9 \/ z = 10 \/ z = 11 \/
                 z = 12 \/ z = 13 \/ z = 14 \/ z = 15 \/ z = 16) by lia.
    repeat (destruct Hc as [-> | Hc]; [eexists; reflexivity|]).
    subst z. eexists; reflexivity. }
  destruct Hd as [t Ht]. exists t. split; [exact Ht|].
  pose proof (TfLiteType_of_Z_sound _ _ Ht) as Hv.
  intros t'. split.
  - intros H. apply TfLiteType_value_inj. congruence.
  - intros ->. exact Hv.
Qed.

Lemma TfLiteDimensionType_of_Z_in_range (z : Z) :
  0 <= z <= 2 ->
  exists d, TfLiteDimensionType_of_Z z = Some d /\
            forall d', TfLiteDimensionType_value d' = z <-> d' = d.
Proof.
  intros Hz.
  assert (Hd : exists d, TfLiteDimensionType_of_Z z = Some d).
  { assert (Hc : z = 0 \/ z = 1 \/ z = 2) by lia.
    repeat (destruct Hc as [-> | Hc]; [eexists; reflexivity|]).
    subst z. eexists; reflexivity. }
  destruct Hd as [d Hd]. exists d. split; [exact Hd|].
  pose proof (TfLiteDimensionType_of_Z_sound _ _ Hd) as Hv.
  intros d'. split.
  - intros H. apply TfLiteDimensionType_value_inj. congruence.
  - intros ->. exact Hv.
Qed.

(** C8. Both tag-to-integer mappings are injective: two members of
    [TfLiteType] with the same value are the same member, likewise for
    [TfLiteDimensionType]; so an integer in range (0..16, resp. 0..2)
    identifies exactly one named tag. *)
Theorem enum_values_identify_tags :
  (forall a b : TfLiteType,
     TfLiteType_value a = TfLiteType_value b -> a = b) /\
  (forall c d : TfLiteDimensionType,
     TfLiteDimensionType_value c = TfLiteDimensionType_value d -> c = d) /\
  (forall z : Z, 0 <= z <= 16 ->
     exists t, TfLiteType_of_Z z = Some t /\
               forall t', TfLiteType_value t' = z <-> t' = t) /\
  (forall z : Z, 0 <= z <= 2 ->
     exists d, TfLiteDimensionType_of_Z z = Some d /\
               forall d', TfLiteDimensionType_value d' = z <-> d' = d).
Proof.
  split; [exact TfLiteType_value_inj|].
  split; [exact TfLiteDimensionType_value_inj|].
  split; [exact TfLiteType_of_Z_in_range
         | exact TfLiteDimensionType_of_Z_in_range].
Qed.

(** Instance of C8 at the values 9 and 1. *)
Lemma enum_values_identify_tags_witness :
  (TfLiteType_value kTfLiteInt8 = TfLiteType_value kTfLiteInt8 /\
   kTfLiteInt8 = kTfLiteInt8) /\
  (0 <= 9 <= 16 /\
   exists t, TfLiteType_of_Z 9 = Some t /\
             forall t', TfLiteType_value t' = 9 <-> t' = t) /\
  (0 <= 1 <= 2 /\
   exists d, TfLiteDimensionType_of_Z 1 = Some d /\
             forall d', TfLiteDimensionType_value d' = 1 <-> d' = d).
Proof.
  destruct enum_values_identify_tags as (Hinj & _ & Ht & Hd).
  split; [split; [reflexivity | apply Hinj; reflexivity]|].
  split; (split; [lia|]).
  - apply Ht; lia.
  - apply Hd; lia.
Defined.

(** C9. The value 0 of [TfLiteType] is [kTfLiteNoType] and nothing else;
    [kTfLiteNoType] is not one of the 16 element kinds, every other member
    is, and none of the element kinds has value 0.  So a zero-initialised
    [TfLiteType] decodes to [kTfLiteNoType], not to [kTfLiteFloat32] or any
    other element kind. *)
Theorem zero_TfLiteType_is_no_type :
  TfLiteType_value kTfLiteNoType = 0 /\
  TfLiteType_of_Z TfLiteType_zero_value = Some kTfLiteNoType /\
  (forall t : TfLiteType, TfLiteType_value t = 0 <-> t = kTfLiteNoType) /\
  length TfLiteType_element_kinds = 16%nat /\
  NoDup TfLiteType_element_kinds /\
  ~ In kTfLiteNoType TfLiteType_element_kinds /\
  (forall t : TfLiteType,
     In t TfLiteType_element_kinds <-> t <> kTfLiteNoType) /\
  (forall t : TfLiteType,
     In t TfLiteType_element_kinds ->
     TfLiteType_of_Z TfLiteType_zero_value <> Some t) /\
  TfLiteType_of_Z TfLiteType_zero_value <> Some kTfLiteFloat32.
Proof.
  assert (Hkinds : forall t : TfLiteType,
             In t TfLiteType_element_kinds <-> t <> kTfLiteNoType).
  { intros t. split.
    - intros Hin ->. simpl in Hin. intuition discriminate.
    - intros Hne. destruct t; [congruence | simpl; tauto ..]. }
  split; [reflexivity|]. split; [reflexivity|].
  split.
  { intros t. split; [|intros ->; reflexivity].
    intros H. apply TfLiteType_value_inj. exact H. }
  split; [reflexivity|].
  split; [apply (bool_decide_unpack _); vm_compute; exact I|].
  split; [intros H; apply Hkinds in H; congruence|].
  split; [exact Hkinds|].
  split; [|discriminate].
  intros t Hin Hz. apply Hkinds in Hin.
  change (Some kTfLiteNoType = Some t) in Hz. congruence.
Qed.

(* ===================================================================== *)
(** ** [float] bit patterns                                               *)
(* ===================================================================== *)

(** [digits2_pos p] is the bit length of [p]. *)
Lemma digits2_pos_bounds (p : positive) :
  2 ^ (Zpos (digits2_pos p) - 1) <= Zpos p < 2 ^ Zpos (digits2_pos p).
Proof.
  induction p as [p IH | p IH |]; simpl digits2_pos.
  - rewrite Pos2Z.inj_succ.
    replace (Z.succ (Zpos (digits2_pos p)) - 1) with (Zpos (digits2_pos p)) by lia.
    rewrite Z.pow_succ_r by lia.
    assert (2 ^ Zpos (digits2_pos p)
            = 2 * 2 ^ (Zpos (digits2_pos p) - 1)) as E.
    { rewrite <- Z.pow_succ_r by lia. f_equal. lia. }
    lia.
  - rewrite Pos2Z.inj_succ.
    replace (Z.succ (Zpos (digits2_pos p)) - 1) with (Zpos (digits2_pos p)) by lia.
    rewrite Z.pow_succ_r by lia.
    assert (2 ^ Zpos (digits2_pos p)
            = 2 * 2 ^ (Zpos (digits2_pos p) - 1)) as E.
    { rewrite <- Z.pow_succ_r by lia. f_equal. lia. }
    lia.
  - simpl. lia.
Qed.

(** A positive number below [2 ^ n] has at most [n] bits, one from
    [2 ^ n] on has more than [n]. *)
Lemma digits2_pos_le (p : positive) (n : Z) :
  0 <= n -> Zpos p < 2 ^ n -> Zpos (digits2_pos p) <= n.
Proof.
  intros Hn Hp. pose proof (digits2_pos_bounds p) as [Hlo _].
  assert (H : 2 ^ (Zpos (digits2_pos p) - 1) < 2 ^ n) by lia.
  apply Z.pow_lt_mono_r_iff in H; lia.
Qed.

Lemma digits2_pos_gt (p : positive) (n : Z) :
  0 <= n -> 2 ^ n <= Zpos p -> n < Zpos (digits2_pos p).
Proof.
  intros Hn Hp. pose proof (digits2_pos_bounds p) as [_ Hhi].
  assert (H : 2 ^ n < 2 ^ Zpos (digits2_pos p)) by lia.
  apply Z.pow_lt_mono_r_iff in H; lia.
Qed.

Lemma float32_exponent_range (b : float32) : 0 <= float32_exponent b <= 255.
Proof.
  unfold float32_exponent.
  assert (E : Z.land (Z.shiftr b 23) 255 = Z.shiftr b 23 mod 2 ^ 8)
    by (apply (Z.land_ones _ 8); lia).
  rewrite E.
  pose proof (Z.mod_pos_bound (Z.shiftr b 23) (2 ^ 8) ltac:(lia)). lia.
Qed.

Lemma float32_significand_range (b : float32) :
  0 <= float32_significand b < 2 ^ 23.
Proof.
  unfold float32_significand.
  assert (E : Z.land b (2 ^ 23 - 1) = b mod 2 ^ 23)
    by (apply (Z.land_ones _ 23); lia).
  rewrite E. apply Z.mod_pos_bound. lia.
Qed.

(** Every bit pattern decodes to a datum of the binary32 format. *)
Lemma float32_decode_valid (b : float32) :
  valid_binary float32_prec float32_emax (float32_decode b) = true.
Proof.
  unfold float32_decode.
  pose proof (float32_exponent_range b) as He.
  pose proof (float32_significand_range b) as Hm.
  destruct (Z.eqb_spec (float32_exponent b) 0) as [E0 | E0].
  - destruct (float32_significand b) as [| p | p] eqn:Em; try reflexivity.
    simpl. unfold bounded, canonical_mantissa, fexp, emin,
             float32_prec, float32_emax.
    pose proof (digits2_pos_le p 23 ltac:(lia) (proj2 Hm)).
    apply andb_true_intro. split.
    + apply Z.eqb_eq. lia.
    + apply Z.leb_le. lia.
  - destruct (Z.eqb_spec (float32_exponent b) 255) as [E1 | E1].
    + destruct (float32_significand b); reflexivity.
    + destruct (float32_significand b + 2 ^ 23) as [| p | p] eqn:Em;
        try reflexivity.
      simpl. unfold bounded, canonical_mantissa, fexp, emin,
               float32_prec, float32_emax.
      pose proof (digits2_pos_le p 24 ltac:(lia) ltac:(lia)).
      pose proof (digits2_pos_gt p 23 ltac:(lia) ltac:(lia)).
      apply andb_true_intro. split.
      * apply Z.eqb_eq. lia.
      * apply Z.leb_le. lia.
Qed.

(** The IEEE comparison [x == x] holds for everything but NaN. *)
Lemma SFeqb_refl (f : spec_float) : f <> S754_nan -> SFeqb f f = true.
Proof.
  intros Hn. unfold SFeqb, SFcompare.
  destruct f as [s | s | | s m e].
  - reflexivity.
  - destruct s; reflexivity.
  - congruence.
  - destruct s; rewrite Z.compare_refl;
      fold (Pos.compare m m); rewrite Pos.compare_refl; reflexivity.
Qed.

Lemma float32_eqb_refl (x : float32) :
  float32_decode x <> S754_nan -> float32_eqb x x = true.
Proof. apply SFeqb_refl. Qed.

(** [0x3f000000] is the binary32 datum of 1/2 ([1 * 2^-1] needs no
    rounding), [0xbf000000] that of -1/2. *)
Lemma float32_half_decode :
  float32_decode float32_half
  = binary_normalize float32_prec float32_emax 1 (-1) false.
Proof. reflexivity. Qed.

Lemma float32_minus_half_decode :
  float32_decode float32_minus_half
  = binary_normalize float32_prec float32_emax (-1) (-1) false.
Proof. reflexivity. Qed.

(* ===================================================================== *)
(** ** [TfLiteQuantizationParams]                                         *)
(* ===================================================================== *)

Lemma TfLiteQuantizationParams_members_roundtrip
  (q : TfLiteQuantizationParams) :
  TfLiteQuantizationParams_of_members
    (TfLiteQuantizationParams_to_members q) = q.
Proof. destruct q; reflexivity. Qed.

Lemma TfLiteQuantizationParams_of_members_roundtrip
  (v : members_denote Header.TfLiteQuantizationParams_members) :
  TfLiteQuantizationParams_to_members
    (TfLiteQuantizationParams_of_members v) = v.
Proof. destruct v as [s [z []]]; reflexivity. Qed.

Lemma TfLiteQuantizationParams_wf_members (q : TfLiteQuantizationParams) :
  members_wf Header.TfLiteQuantizationParams_members
             (TfLiteQuantizationParams_to_members q)
  = TfLiteQuantizationParams_wf q.
Proof.
  unfold TfLiteQuantizationParams_wf. simpl. now rewrite andb_true_r.
Qed.

Lemma TfLiteQuantizationParams_wf_iff (q : TfLiteQuantizationParams) :
  TfLiteQuantizationParams_wf q = true <->
  0 <= scale q < 2 ^ 32 /\ - 2 ^ 31 <= zero_point q < 2 ^ 31.
Proof.
  unfold TfLiteQuantizationParams_wf, float32_wf, int32_wf,
    int32_min, int32_max.
  rewrite !andb_true_iff, !Z.leb_le, Z.ltb_lt. lia.
Qed.

Lemma TfLiteQuantizationParams_copy_id (q : TfLiteQuantizationParams) :
  TfLiteQuantizationParams_copy q = q.
Proof. destruct q; reflexivity. Qed.

Lemma TfLiteQuantizationParams_assign_id
  (dst src : TfLiteQuantizationParams) :
  TfLiteQuantizationParams_assign dst src = src.
Proof. destruct src; reflexivity. Qed.

(** Copy, assignment and member stores stay inside the type. *)
Lemma TfLiteQuantizationParams_copy_wf (q : TfLiteQuantizationParams) :
  TfLiteQuantizationParams_wf (TfLiteQuantizationParams_copy q)
  = TfLiteQuantizationParams_wf q.
Proof. reflexivity. Qed.

Lemma TfLiteQuantizationParams_assign_wf
  (dst src : TfLiteQuantizationParams) :
  TfLiteQuantizationParams_wf (TfLiteQuantizationParams_assign dst src)
  = TfLiteQuantizationParams_wf src.
Proof. reflexivity. Qed.

Lemma TfLiteQuantizationParams_set_scale_wf
  (q : TfLiteQuantizationParams) (s : float32) :
  TfLiteQuantizationParams_wf q = true -> float32_wf s = true ->
  TfLiteQuantizationParams_wf (TfLiteQuantizationParams_set_scale q s) = true.
Proof.
  unfold TfLiteQuantizationParams_wf. simpl.
  rewrite !andb_true_iff. tauto.
Qed.

Lemma TfLiteQuantizationParams_set_zero_point_wf
  (q : TfLiteQuantizationParams) (z : int32) :
  TfLiteQuantizationParams_wf q = true -> int32_wf z = true ->
  TfLiteQuantizationParams_wf (TfLiteQuantizationParams_set_zero_point q z)
  = true.
Proof.
  unfold TfLiteQuantizationParams_wf. simpl.
  rewrite !andb_true_iff. tauto.
Qed.

(** With the IEEE [==], the copied [scale] compares equal to the
    original unless it is a NaN (which compares unequal to itself). *)
Lemma TfLiteQuantizationParams_copy_scale_eqb (q : TfLiteQuantizationParams) :
  float32_decode (scale q) <> S754_nan ->
  float32_eqb (scale (TfLiteQuantizationParams_copy q)) (scale q) = true.
Proof. intros Hn. simpl. now apply float32_eqb_refl. Qed.

(** C3. [TfLiteQuantizationParams] is a plain record of exactly two
    members, in this order: [scale], a 32-bit [float], then [zero_point],
    a 32-bit signed integer ([int32_t]).  The header declares these two
    members and no other, the record is the pair of a [float] and an
    [int32_t] (first component [scale], second [zero_point]), and its
    values are the pairs of a 32-bit pattern and an integer in
    [-2^31, 2^31). *)
Theorem TfLiteQuantizationParams_two_members :
  Header.TfLiteQuantizationParams_members
  = [ Header.Member Header.CFloat "scale";
      Header.Member Header.CInt32 "zero_point" ] /\
  members_denote Header.TfLiteQuantizationParams_members
  = (float32 * (int32 * unit))%type /\
  (forall q : TfLiteQuantizationParams,
     TfLiteQuantizationParams_to_members q = (scale q, (zero_point q, tt))) /\
  (forall q : TfLiteQuantizationParams,
     TfLiteQuantizationParams_of_members
       (TfLiteQuantizationParams_to_members q) = q) /\
  (forall v : members_denote Header.TfLiteQuantizationParams_members,
     TfLiteQuantizationParams_to_members
       (TfLiteQuantizationParams_of_members v) = v) /\
  (forall q : TfLiteQuantizationParams,
     TfLiteQuantizationParams_wf q = true <->
     0 <= scale q < 2 ^ 32 /\ - 2 ^ 31 <= zero_point q < 2 ^ 31) /\
  (forall q : TfLiteQuantizationParams,
     valid_binary float32_prec float32_emax (float32_decode (scale q))
     = true).
Proof.
  split; [reflexivity|]. split; [reflexivity|]. split; [reflexivity|].
  split; [exact TfLiteQuantizationParams_members_roundtrip|].
  split; [exact TfLiteQuantizationParams_of_members_roundtrip|].
  split; [exact TfLiteQuantizationParams_wf_iff|].
  intros q. apply float32_decode_valid.
Qed.

(** C4. Copy construction and assignment give a value whose [scale] and
    [zero_point] are those of the original, for every value and in
    particular for [scale = 0.5], [zero_point = 128]; there the copied
    [scale] also compares equal to [0.5f] with the IEEE [==]. *)
Theorem TfLiteQuantizationParams_copy_roundtrip :
  (forall q : TfLiteQuantizationParams,
     scale (TfLiteQuantizationParams_copy q) = scale q /\
     zero_point (TfLiteQuantizationParams_copy q) = zero_point q) /\
  (forall dst q : TfLiteQuantizationParams,
     scale (TfLiteQuantizationParams_assign dst q) = scale q /\
     zero_point (TfLiteQuantizationParams_assign dst q) = zero_point q) /\
  (forall dst q : TfLiteQuantizationParams,
     TfLiteQuantizationParams_assign dst (TfLiteQuantizationParams_copy q)
     = q) /\
  (let q0 := {| scale := float32_half; zero_point := 128 |} in
   TfLiteQuantizationParams_wf q0 = true /\
   float32_decode (scale q0)
   = binary_normalize float32_prec float32_emax 1 (-1) false /\
   scale (TfLiteQuantizationParams_copy q0) = float32_half /\
   zero_point (TfLiteQuantizationParams_copy q0) = 128 /\
   (forall dst : TfLiteQuantizationParams,
      scale (TfLiteQuantizationParams_assign dst q0) = float32_half /\
      zero_point (TfLiteQuantizationParams_assign dst q0) = 128) /\
   float32_eqb (scale (TfLiteQuantizationParams_copy q0)) float32_half
   = true).
Proof.
  split; [intros q; split; reflexivity|].
  split; [intros dst q; split; reflexivity|].
  split.
  { intros dst q.
    now rewrite TfLiteQuantizationParams_assign_id,
      TfLiteQuantizationParams_copy_id. }
  cbv zeta. split; [reflexivity|]. split; [reflexivity|].
  split; [reflexivity|]. split; [reflexivity|].
  split; [intros dst; split; reflexivity | reflexivity].
Qed.

(** C6. The type does not make [scale] non-negative: the value with
    [scale = -0.5f], [zero_point = 0] is a well-formed
    [TfLiteQuantizationParams] and its [scale] is below zero. *)
Theorem TfLiteQuantizationParams_scale_may_be_negative :
  exists q : TfLiteQuantizationParams,
    TfLiteQuantizationParams_wf q = true /\
    float32_is_negative (scale q) = true.
Proof.
  exists {| scale := float32_minus_half; zero_point := 0 |}.
  split; reflexivity.
Qed.

(** C10. A store to one member leaves the other member as it was:
    [q.scale = s] does not change [q.zero_point], and [q.zero_point = z]
    does not change [q.scale]. *)
Theorem TfLiteQuantizationParams_member_store_frame :
  (forall (q : TfLiteQuantizationParams) (s : float32),
     zero_point (TfLiteQuantizationParams_set_scale q s) = zero_point q) /\
  (forall (q : TfLiteQuantizationParams) (z : int32),
     scale (TfLiteQuantizationParams_set_zero_point q z) = scale q).
Proof. split; reflexivity. Qed.

(** The stored member reads back as the value stored. *)
Lemma TfLiteQuantizationParams_member_store_read
  (q : TfLiteQuantizationParams) (s : float32) (z : int32) :
  scale (TfLiteQuantizationParams_set_scale q s) = s /\
  zero_point (TfLiteQuantizationParams_set_zero_point q z) = z.
Proof. split; reflexivity. Qed.

(* ===================================================================== *)
(** ** [MlirContext] and [MlirType]                                       *)
(* ===================================================================== *)

Lemma MlirContext_members_roundtrip (h : MlirContext.t) :
  MlirContext.of_members (MlirContext.to_members h) = h.
Proof. destruct h; reflexivity. Qed.

Lemma MlirContext_of_members_roundtrip
  (v : members_denote Header.MlirContext_members) :
  MlirContext.to_members (MlirContext.of_members v) = v.
Proof. destruct v as [p []]; reflexivity. Qed.

Lemma MlirType_members_roundtrip (h : MlirType.t) :
  MlirType.of_members (MlirType.to_members h) = h.
Proof. destruct h; reflexivity. Qed.

Lemma MlirType_of_members_roundtrip
  (v : members_denote Header.MlirType_members) :
  MlirType.to_members (MlirType.of_members v) = v.
Proof. destruct v as [p []]; reflexivity. Qed.

(** A handle is its pointer and nothing more. *)
Lemma MlirContext_ptr_inj (h h' : MlirContext.t) :
  MlirContext.ptr h = MlirContext.ptr h' -> h = h'.
Proof. destruct h, h'; simpl; congruence. Qed.

Lemma MlirType_ptr_inj (h h' : MlirType.t) :
  MlirType.ptr h = MlirType.ptr h' -> h = h'.
Proof. destruct h, h'; simpl; congruence. Qed.

(** C5. [MlirContext] and [MlirType] each hold exactly one member, a
    [void *] named [ptr]: the header declares that member and no other,
    a handle is the 1-tuple of its pointer, any pointer makes a handle and
    two handles with the same pointer are equal.  Each can hold a null
    pointer: the zero-initialised handle is a value of the type, it is
    well formed, and its [ptr] is null. *)
Theorem Mlir_handles_hold_one_pointer :
  (Header.MlirContext_members = [ Header.Member Header.CVoidPtr "ptr" ] /\
   Header.MlirType_members = [ Header.Member Header.CVoidPtr "ptr" ]) /\
  (members_denote Header.MlirContext_members = (voidptr * unit)%type /\
   members_denote Header.MlirType_members = (voidptr * unit)%type) /\
  ((forall h : MlirContext.t,
      MlirContext.of_members (MlirContext.to_members h) = h) /\
   (forall v : members_denote Header.MlirContext_members,
      MlirContext.to_members (MlirContext.of_members v) = v) /\
   (forall h : MlirType.t,
      MlirType.of_members (MlirType.to_members h) = h) /\
   (forall v : members_denote Header.MlirType_members,
      MlirType.to_members (MlirType.of_members v) = v)) /\
  ((forall p : voidptr, MlirContext.ptr (MlirContext.mk p) = p) /\
   (forall h h' : MlirContext.t,
      MlirContext.ptr h = MlirContext.ptr h' -> h = h') /\
   (forall p : voidptr, MlirType.ptr (MlirType.mk p) = p) /\
   (forall h h' : MlirType.t,
      MlirType.ptr h = MlirType.ptr h' -> h = h')) /\
  (MlirContext.ptr MlirContext.zero = NULL /\
   MlirContext.is_null MlirContext.zero = true /\
   members_wf Header.MlirContext_members
              (MlirContext.to_members MlirContext.zero) = true) /\
  (MlirType.ptr MlirType.zero = NULL /\
   MlirType.is_null MlirType.zero = true /\
   members_wf Header.MlirType_members
              (MlirType.to_members MlirType.zero) = true).
Proof.
  split; [split; reflexivity|]. split; [split; reflexivity|].
  split.
  { split; [exact MlirContext_members_roundtrip|].
    split; [exact MlirContext_of_members_roundtrip|].
    split; [exact MlirType_members_roundtrip
           | exact MlirType_of_members_roundtrip]. }
  split.
  { split; [reflexivity|]. split; [exact MlirContext_ptr_inj|].
    split; [reflexivity | exact MlirType_ptr_inj]. }
  split; repeat split.
Qed.

(* ===================================================================== *)
(** ** The headers declare data only                                      *)
(* ===================================================================== *)

(** C7. Every declaration of the two headers is a data declaration (an
    enumeration or a struct): the five declared entities are the two
    enumerations, the quantization record and the two handle structs, and
    no function is declared, so there is no operation that could return an
    error or take a failure branch. *)
Theorem headers_declare_data_only :
  forallb Header.is_data_declaration
          (Header.types_h ++ Header.tflite_types_h) = true /\
  Header.declared_functions (Header.types_h ++ Header.tflite_types_h) = [] /\
  map Header.declared_name (Header.types_h ++ Header.tflite_types_h)
  = [ "TfLiteType"; "TfLiteQuantizationParams"; "TfLiteDimensionType";
      "MlirContext"; "MlirType" ]%string /\
  (forall d : Header.declaration,
     In d (Header.types_h ++ Header.tflite_types_h) ->
     exists tag alias,
       (exists es, d = Header.TypedefEnum tag alias es) \/
       (exists ms, d = Header.TypedefStruct tag alias ms)).
Proof.
  split; [reflexivity|]. split; [reflexivity|]. split; [reflexivity|].
  intros d Hd. simpl in Hd.
  repeat (destruct Hd as [<- | Hd];
          [do 2 eexists; (left; eexists; reflexivity)
                         || (right; eexists; reflexivity)|]).
  destruct Hd.
Qed.

(* ===================================================================== *)
(** ** Preprocessing the headers                                          *)
(* ===================================================================== *)

Import Preprocessor.

Lemma run_cons (l : line) (ls : list line) (st : state) :
  run (l :: ls) st
  = match step l st with
    | Some st' => run ls st'
    | None => None
    end.
Proof. reflexivity. Qed.

Lemma cplusplus_after_guard (h : header) (D : gset string) :
  bool_decide (cplusplus ∈ ({[header_guard h]} ∪ D : gset string))
  = bool_decide (cplusplus ∈ D).
Proof.
  apply bool_decide_ext. rewrite elem_of_union, elem_of_singleton.
  split; [|tauto]. intros [E|H]; [|exact H]. destruct h; discriminate E.
Qed.

(** One line of a file, on a state in constructor form; the tests of
    macros are settled by the equations at hand. *)
Ltac pp_line :=
  rewrite run_cons;
  cbn [step open_cond emit active conds macros output andb negb];
  repeat match goal with
         | H : bool_decide _ = _ |- _ => rewrite H
         end;
  cbn [step open_cond emit active conds macros output andb negb].

Lemma include_file_fresh (h : header) (D : gset string) (out : list item) :
  header_guard h ∉ D ->
  include_file (header_lines h) (D, out)
  = Some ({[header_guard h]} ∪ D,
          out ++ header_items h (bool_decide (cplusplus ∈ D))).
Proof.
  intros Hfresh.
  assert (Hg : bool_decide (header_guard h ∈ D) = false)
    by (apply bool_decide_eq_false_2; exact Hfresh).
  clear Hfresh.
  pose proof (cplusplus_after_guard h D) as Hcpp.
  destruct (bool_decide (cplusplus ∈ D)) eqn:Eb;
    destruct h; unfold cplusplus in *; cbn [header_guard] in *;
    unfold include_file, header_lines, types_h, tflite_types_h,
      header_items, header_declarations,
      Header.types_h, Header.tflite_types_h;
    cbn [app map fst snd];
    repeat pp_line; cbn [run conds macros output];
    rewrite <- ?app_assoc; reflexivity.
Qed.

Lemma include_file_again (h : header) (D : gset string) (out : list item) :
  header_guard h ∈ D ->
  include_file (header_lines h) (D, out) = Some (D, out).
Proof.
  intros Hin.
  assert (Hg : bool_decide (header_guard h ∈ D) = true)
    by (apply bool_decide_eq_true_2; exact Hin).
  clear Hin.
  destruct h; cbn [header_guard] in *;
    unfold include_file, header_lines, types_h, tflite_types_h,
      Header.types_h, Header.tflite_types_h;
    cbn [app map fst snd];
    repeat pp_line; cbn [run conds macros output]; reflexivity.
Qed.







(** X2. Include guards.  Once the guard of a header is defined, including
    the header again changes nothing: no macro is defined and nothing is
    let through.  So including a header twice in a row is the same as
    including it once, whatever the state before. *)
Theorem reinclusion_changes_nothing (h : header) :
  (forall (D : gset string) (out : list item),
     header_guard h ∈ D ->
     include_file (header_lines h) (D, out) = Some (D, out)) /\
  (forall tu : gset string * list item,
     match include_file (header_lines h) tu with
     | Some tu' => include_file (header_lines h) tu'
     | None => None
     end = include_file (header_lines h) tu).
Proof.
  split; [intros D out; apply include_file_again|].
  intros [D out].
  destruct (decide (header_guard h ∈ D)) as [Hin | Hfresh].
  - rewrite include_file_again by exact Hin.
    now apply include_file_again.
  - rewrite include_file_fresh by exact Hfresh.
    apply include_file_again. set_solver.
Qed.
















(* ===================================================================== *)
(** ** Decoding a stored tag                                              *)
(* ===================================================================== *)

(** X7. Decoding an integer as a [TfLiteType] or a [TfLiteDimensionType]
    tag answers with a tag exactly when that tag has the integer as its
    value, and with none exactly when the integer is outside the declared
    values (below 0, above 16 resp. 2). *)
Theorem enum_of_Z_spec (z : Z) :
  (forall t : TfLiteType,
     TfLiteType_of_Z z = Some t <-> TfLiteType_value t = z) /\
  (TfLiteType_of_Z z = None <-> z < 0 \/ 16 < z) /\
  (forall d : TfLiteDimensionType,
     TfLiteDimensionType_of_Z z = Some d <->
     TfLiteDimensionType_value d = z) /\
  (TfLiteDimensionType_of_Z z = None <-> z < 0 \/ 2 < z).
Proof.
  split; [|split; [|split]].
  - intros t. split; [apply TfLiteType_of_Z_sound|].
    intros <-. apply TfLiteType_of_Z_value.
  - split; [|apply TfLiteType_of_Z_out_of_range].
    intros Hn. destruct (Z_lt_le_dec z 0) as [|Hlo]; [tauto|].
    destruct (Z_lt_le_dec 16 z) as [|Hhi]; [tauto|].
    destruct (TfLiteType_of_Z_in_range z (conj Hlo Hhi)) as (t & Ht & _).
    congruence.
  - intros d. split; [apply TfLiteDimensionType_of_Z_sound|].
    intros <-. apply TfLiteDimensionType_of_Z_value.
  - split; [|apply TfLiteDimensionType_of_Z_out_of_range].
    intros Hn. destruct (Z_lt_le_dec z 0) as [|Hlo]; [tauto|].
    destruct (Z_lt_le_dec 2 z) as [|Hhi]; [tauto|].
    destruct (TfLiteDimensionType_of_Z_in_range z (conj Hlo Hhi))
      as (d & Hd & _).
    congruence.
Qed.
